(** * PySyft core: identifiers (syft/core/common/uid.py) and the base
      worker (syft/core/worker/worker.py)

    A shallow embedding of the two modules.  Python objects become records,
    raised exceptions become the [Raise] branch of an error monad, the
    standard-library [uuid.UUID] is a record around its 128-bit [int], byte
    strings are lists of [Byte.byte], and dictionaries keyed by strings are
    stdpp [gmap]s.

    Methods are modelled by their bodies, on arguments of the annotated
    types.  The decorators [syft_decorator] and [type_hints] and the
    metaclass [WorkerSupervisor] are defined outside the two modules and are
    not part of the model. *)

From Stdlib Require Import ZArith Lia.
From Stdlib Require Import Strings.Byte Strings.Ascii.
From stdpp Require Import base tactics option list gmap strings.

Local Open Scope Z_scope.

(** ** Exceptions and the error monad *)

(** The Python exceptions that the two modules, and the library calls they
    make, can raise. *)
Inductive exn : Type :=
| ValueError (msg : string)
| OverflowError (msg : string)
| KeyError (msg : string)
| NotImplementedError.

Inductive result (A : Type) : Type :=
| Ok (a : A)
| Raise (e : exn).
Arguments Ok {A} a.
Arguments Raise {A} e.

Definition bind {A B : Type} (m : result A) (k : A -> result B) : result B :=
  match m with
  | Ok a => k a
  | Raise e => Raise e
  end.

Notation "'let!' x ':=' m 'in' k" := (bind m (fun x => k))
  (at level 10, x name, m at level 100, k at level 200).

(** A [for] loop whose body may raise: the accumulator is threaded through
    the iterations and the first exception leaves the loop. *)
Fixpoint for_each {S X : Type} (body : S -> X -> result S) (xs : list X) (s : S)
  : result S :=
  match xs with
  | [] => Ok s
  | x :: xs' => let! s' := body s x in for_each body xs' s'
  end.

(** ** Byte strings and [int.to_bytes] / [int.from_bytes] *)

Abbreviation bytes := (list byte).

Definition byte_to_Z (b : byte) : Z := Z.of_N (Byte.to_N b).

Definition byte_of_Z (z : Z) : byte :=
  match Byte.of_N (Z.to_N z) with
  | Some b => b
  | None => x00
  end.

(** Little-endian digits of [n] in base 256, [length] of them. *)
Fixpoint digits_le (length : nat) (n : Z) : bytes :=
  match length with
  | O => []
  | S k => byte_of_Z (n mod 256) :: digits_le k (n / 256)
  end.

(** [n.to_bytes(length, "big")]: raises [OverflowError] on a negative [n]
    and on one that does not fit. *)
Definition int_to_bytes (n : Z) (length : nat) : result bytes :=
  if decide (n < 0) then
    Raise (OverflowError "can't convert negative int to unsigned")
  else if decide (256 ^ Z.of_nat length <= n) then
    Raise (OverflowError "int too big to convert")
  else Ok (reverse (digits_le length n)).

(** [int.from_bytes(b, "big")]. *)
Definition int_from_bytes (b : bytes) : Z :=
  foldl (fun acc d => acc * 256 + byte_to_Z d) 0 b.

(** ** The standard library's [uuid] module, as far as [uid.py] uses it *)

Module uuid.

(** A [uuid.UUID] object holds its value in the attribute [int]. *)
Record UUID : Type := mkUUID { int : Z }.

(** Every [UUID] that the constructor lets through is a 128-bit value. *)
Definition wf (u : UUID) : Prop := 0 <= int u < 2 ^ 128.

(** [uuid.UUID(int=i)]. *)
Definition UUID_of_int (i : Z) : result UUID :=
  if decide (0 <= i < 2 ^ 128) then Ok (mkUUID i)
  else Raise (ValueError "int is out of range (need a 128-bit value)").

(** [uuid.UUID(bytes=b)]. *)
Definition UUID_of_bytes (b : bytes) : result UUID :=
  if decide (length b ≠ 16%nat) then
    Raise (ValueError "bytes is not a 16-char string")
  else UUID_of_int (int_from_bytes b).

(** The property [UUID.bytes]. *)
Definition bytes_of (u : UUID) : result bytes := int_to_bytes (int u) 16.

(** [UUID.__eq__] between two UUID objects compares the [int]s. *)
Definition UUID___eq__ (a b : UUID) : bool := bool_decide (int a = int b).

End uuid.

(** ** syft/core/common/uid.py *)

(** A [UID] object: the wrapped [uuid] value and the [as_wrapper] flag that
    [Serializable.__init__] stores on the instance. *)
Record UID : Type := mkUID {
  value : uuid.UUID;
  as_wrapper : bool
}.

(** The protobuf message [ProtoUID], imported from the package [proto],
    with its three fields. *)
Module proto.
Record ProtoUID : Type := mkProtoUID {
  obj_type : string;
  value : bytes;
  as_wrapper : bool
}.
End proto.

(** [UID.__init__(value, as_wrapper)].  [fresh] is what [uuid.uuid4()]
    returns at this call; it is used only when no [value] is passed. *)
Definition UID___init__ (fresh : uuid.UUID)
    (value : option uuid.UUID) (as_wrapper : bool) : UID :=
  let value := match value with
               | None => fresh
               | Some v => v
               end in
  mkUID value as_wrapper.

(** [UID.__hash__]. *)
Definition UID___hash__ (self : UID) : Z := uuid.int (value self).

(** The Python values that the modelled methods take and return.  [PyAck]
    and [PyNotFound] are the two payload-free responses.

    Modelled from the spec: the response values [Ack] and [NotFound] of the
    object store and of the dispatch contract; their classes are not among
    the sources. *)
Inductive PyVal : Type :=
| PyNone
| PyBool (b : bool)
| PyInt (z : Z)
| PyStr (s : string)
| PyBytes (b : bytes)
| PyUUID (u : uuid.UUID)
| PyUID (u : UID)
| PyAck
| PyNotFound.

(** [UID.__eq__]: the body has a single [if isinstance(other, UID)] with a
    [return] inside it and nothing after it, so any other argument falls off
    the end of the function, which in Python returns [None]. *)
Definition UID___eq__ (self : UID) (other : PyVal) : PyVal :=
  match other with
  | PyUID other => PyBool (uuid.UUID___eq__ (value self) (value other))
  | _ => PyNone
  end.

(** [type(self).__module__ + "." + type(self).__name__] for the final class
    [UID]. *)
Definition UID_obj_type : string := "syft.core.common.uid" +:+ "." +:+ "UID".

(** [UID._object2proto]. *)
Definition UID__object2proto (self : UID) : result proto.ProtoUID :=
  let obj_type := UID_obj_type in
  let! value_bytes := uuid.bytes_of (value self) in
  Ok (proto.mkProtoUID obj_type value_bytes (as_wrapper self)).

(** [UID._proto2object]: the raw [uuid] value when the message carries
    [as_wrapper], a [UID] built with the default [as_wrapper=False]
    otherwise.  The [value] argument is passed, so [uuid.uuid4()] is not
    called; [value] itself stands in for the unused fresh identifier. *)
Definition UID__proto2object (proto : proto.ProtoUID) : result PyVal :=
  let! value := uuid.UUID_of_bytes (proto.value proto) in
  if proto.as_wrapper proto then Ok (PyUUID value)
  else Ok (PyUID (UID___init__ value (Some value) false)).

(** ** syft/core/worker/worker.py *)

(** Modelled from the spec: the message classes that worker.py imports from
    [syft.core.message], which is not among the sources; the five variants
    and their fields are those of the spec's data model. *)
Inductive SyftMessage : Type :=
| SaveObjectMessage (uid : UID) (object : PyVal)
| GetObjectMessage (uid : UID)
| DeleteObjectMessage (uid : UID)
| RunClassMethodMessage (uid : UID) (method_name : string) (args : list PyVal)
| RunFunctionOrConstructorMessage (path : string) (args : list PyVal).

Module worker.
Section Defs.

(** The collaborators that worker.py imports and only constructs or stores:
    the call-graph nodes of a framework, the object store with its
    constructor [ObjectStore()], the router table
    [message_service_mapping] and the statistics collector with its
    constructor [WorkerStats()]. *)
Context (Ast ObjectStore Router WorkerStats : Type).
Context (ObjectStore_new : ObjectStore).
Context (message_service_mapping : Router).
Context (WorkerStats_new : WorkerStats).

(** A [Globals] object, of which the constructor reads and writes the
    dictionary [attrs]. *)
Record Globals : Type := mkGlobals { attrs : gmap string Ast }.

(** What [Globals()] returns. *)
Context (Globals_new : Globals).

(** An element of [supported_frameworks]: an object whose [ast] attribute
    is a [Globals]. *)
Record Framework : Type := mkFramework { ast : Globals }.

Record Worker : Type := mkWorker {
  id : string;
  store : ObjectStore;
  frameworks : Globals;
  msg_router : Router;
  worker_stats : option WorkerStats
}.

Definition already_imported : exn :=
  KeyError "Framework already imported. Why are you importing it twice?".

(** The body of the inner loop of [Worker.__init__], on
    [self.frameworks.attrs]. *)
Definition register_attr (fattrs : gmap string Ast) (item : string * Ast)
  : result (gmap string Ast) :=
  let '(name, node) := item in
  if decide (is_Some (fattrs !! name)) then Raise already_imported
  else Ok (<[name := node]> fattrs).

(** The body of the outer loop: the inner loop over
    [fw.ast.attrs.items()]. *)
Definition register_framework (fattrs : gmap string Ast) (fw : Framework)
  : result (gmap string Ast) :=
  for_each register_attr (map_to_list (attrs (ast fw))) fattrs.

(** [Worker.__init__(id, debug, supported_frameworks)]. *)
Definition Worker___init__ (id : string) (debug : bool)
    (supported_frameworks : list Framework) : result Worker :=
  let store := ObjectStore_new in
  let frameworks := Globals_new in
  let! fattrs :=
    for_each register_framework supported_frameworks (attrs frameworks) in
  let frameworks := mkGlobals fattrs in
  let msg_router := message_service_mapping in
  let worker_stats := None in
  let worker_stats := if debug then Some WorkerStats_new else worker_stats in
  Ok (mkWorker id store frameworks msg_router worker_stats).

(** The methods take the worker and return the value together with the
    worker as the call leaves it. *)

(** [Worker.recv_msg]: the body is [pass]. *)
Definition recv_msg (self : Worker) (msg : SyftMessage)
  : result (PyVal * Worker) :=
  Ok (PyNone, self).

(** [Worker._send_msg]. *)
Definition _send_msg (self : Worker) : result (PyVal * Worker) :=
  Raise NotImplementedError.

(** [Worker._recv_msg]. *)
Definition _recv_msg (self : Worker) : result (PyVal * Worker) :=
  Raise NotImplementedError.

End Defs.

Arguments mkGlobals {Ast} attrs.
Arguments attrs {Ast} g.
Arguments mkFramework {Ast} ast.
Arguments ast {Ast} f.
Arguments mkWorker {Ast ObjectStore Router WorkerStats}
  id store frameworks msg_router worker_stats.
Arguments id {Ast ObjectStore Router WorkerStats} w.
Arguments store {Ast ObjectStore Router WorkerStats} w.
Arguments frameworks {Ast ObjectStore Router WorkerStats} w.
Arguments msg_router {Ast ObjectStore Router WorkerStats} w.
Arguments worker_stats {Ast ObjectStore Router WorkerStats} w.
Arguments register_attr {Ast} fattrs item.
Arguments register_framework {Ast} fattrs fw.
Arguments Worker___init__ {Ast ObjectStore Router WorkerStats}
  ObjectStore_new message_service_mapping WorkerStats_new Globals_new
  id debug supported_frameworks.
Arguments recv_msg {Ast ObjectStore Router WorkerStats} self msg.
Arguments _send_msg {Ast ObjectStore Router WorkerStats} self.
Arguments _recv_msg {Ast ObjectStore Router WorkerStats} self.

(** The responses to a sequence of messages received one after the other,
    with the worker as the last call leaves it. *)
Fixpoint recv_msgs {Ast ObjectStore Router WorkerStats : Type}
    (self : Worker Ast ObjectStore Router WorkerStats)
    (msgs : list SyftMessage)
  : result (list PyVal * Worker Ast ObjectStore Router WorkerStats) :=
  match msgs with
  | [] => Ok ([], self)
  | msg :: msgs' =>
      let! r := recv_msg self msg in
      let! rs := recv_msgs r.2 msgs' in
      Ok (r.1 :: rs.1, rs.2)
  end.

Section Repr.

(** What [Worker.__repr__] asks of the statistics collector: its truth
    value in [if self.worker_stats] and its [str] in the f-string. *)
Context {Ast ObjectStore Router WorkerStats : Type}.
Context (WorkerStats___bool__ : WorkerStats -> bool).
Context (WorkerStats___str__ : WorkerStats -> string).

Definition newline : string := String "010"%char EmptyString.

(** [Worker.__repr__]; [None] counts as false in the [if]. *)
Definition Worker___repr__ (self : Worker Ast ObjectStore Router WorkerStats)
  : string :=
  match worker_stats self with
  | Some stats =>
      if WorkerStats___bool__ stats then
        "Worker: " +:+ id self +:+ newline +:+ WorkerStats___str__ stats
      else "Worker id:" +:+ id self
  | None => "Worker id:" +:+ id self
  end.

End Repr.

End worker.

(** ** [UID.__repr__] and the text form of a [uuid.UUID] *)

(** The lower-case hexadecimal digit of [d]. *)
Definition hex_digit (d : Z) : ascii :=
  match d with
  | 0 => "0" | 1 => "1" | 2 => "2" | 3 => "3" | 4 => "4" | 5 => "5"
  | 6 => "6" | 7 => "7" | 8 => "8" | 9 => "9" | 10 => "a" | 11 => "b"
  | 12 => "c" | 13 => "d" | 14 => "e" | _ => "f"
  end%char.

(** Little-endian hexadecimal digits of [n], [len] of them. *)
Fixpoint hex_le (len : nat) (n : Z) : list ascii :=
  match len with
  | O => []
  | S k => hex_digit (n mod 16) :: hex_le k (n / 16)
  end.

(** The number of hexadecimal digits of [n >= 0]. *)
Definition hex_len (n : Z) : nat :=
  if decide (n = 0) then 1%nat else Z.to_nat (Z.log2 n / 4 + 1).

(** ['%0<width>x' % n]: hexadecimal, padded with zeros to [width]
    characters, the sign of a negative [n] first. *)
Definition format_0x (width : nat) (n : Z) : list ascii :=
  if decide (n < 0) then
    "-"%char :: reverse (hex_le (Nat.max (width - 1) (hex_len (- n))) (- n))
  else reverse (hex_le (Nat.max width (hex_len n)) n).

(** The slice [s[i:j]]. *)
Definition slice (i j : nat) (s : list ascii) : list ascii :=
  take (j - i) (drop i s).

(** [UUID.__str__]: the 32 hexadecimal digits in groups of 8, 4, 4, 4 and
    12. *)
Definition UUID___str__ (u : uuid.UUID) : list ascii :=
  let hex := format_0x 32 (uuid.int u) in
  slice 0 8 hex ++ "-"%char :: slice 8 12 hex ++ "-"%char ::
  slice 12 16 hex ++ "-"%char :: slice 16 20 hex ++ "-"%char :: drop 20 hex.

(** [UID.__repr__]: [f"<UID:{self.value}>"]. *)
Definition UID___repr__ (self : UID) : string :=
  "<UID:" +:+ String.string_of_list_ascii (UUID___str__ (value self)) +:+ ">".

(** The value of a little-endian hexadecimal digit string, and the digits
    of a text form with its four dashes taken out; the specification side
    of [hex_le] and [UUID.__str__]. *)
Definition hex_value (c : ascii) : Z :=
  let n := Z.of_nat (nat_of_ascii c) in
  if decide (n < 58) then n - 48 else n - 87.

Fixpoint value_hex_le (l : list ascii) : Z :=
  match l with
  | [] => 0
  | c :: l' => hex_value c + 16 * value_hex_le l'
  end.

Definition undash (s : list ascii) : list ascii :=
  slice 0 8 s ++ slice 9 13 s ++ slice 14 18 s ++ slice 19 23 s ++ drop 24 s.

(** ** The builtin [hash] on a [UID] *)

(** What CPython (64-bit build) makes of the integer [n] that a
    [__hash__] method returns: an [n] that fits a signed machine word is
    kept, any other is reduced modulo the prime 2^61 - 1, keeping its
    sign; the result -1, reserved for errors, becomes -2. *)
Definition hash_of_int (n : Z) : Z :=
  let h := if decide (- 2 ^ 63 <= n < 2 ^ 63) then n
           else Z.sgn n * (Z.abs n mod (2 ^ 61 - 1)) in
  if decide (h = -1) then -2 else h.

(** [hash(uid)]: the builtin applied to what [UID.__hash__] returns. *)
Definition builtin_hash (self : UID) : Z := hash_of_int (UID___hash__ self).

(** ** Sample values *)

(** Two identifiers whose values differ by a multiple of 2^61 - 1. *)
Definition uid_8 : UID := mkUID (uuid.mkUUID 8) false.

Definition uid_2_64 : UID := mkUID (uuid.mkUUID (2 ^ 64)) false.


(** The identifier printed in the docstring of [UID.__init__]. *)
Definition uid_doc : UID :=
  mkUID (uuid.mkUUID 0x8d744978327b4126a644cb90bcadd35e) false.

(** The same identifier, wrapping the native value. *)
Definition uid_wrapping : UID :=
  mkUID (uuid.mkUUID 0x8d744978327b4126a644cb90bcadd35e) true.

(** The serialized messages of the two. *)
Definition proto_doc : proto.ProtoUID :=
  proto.mkProtoUID "syft.core.common.uid.UID"
    [x8d; x74; x49; x78; x32; x7b; x41; x26;
     xa6; x44; xcb; x90; xbc; xad; xd3; x5e] false.

Definition proto_wrapping : proto.ProtoUID :=
  proto.mkProtoUID "syft.core.common.uid.UID"
    [x8d; x74; x49; x78; x32; x7b; x41; x26;
     xa6; x44; xcb; x90; xbc; xad; xd3; x5e] true.

(** A message whose value has three bytes. *)
Definition proto_short : proto.ProtoUID :=
  proto.mkProtoUID UID_obj_type [x01; x02; x03] false.

(** Sample collaborators for closed examples: call-graph nodes numbered by
    [nat], an object store that is a table from identifier values to
    objects and is created empty, and a router and a statistics collector
    without content. *)
Abbreviation SampleWorker := (worker.Worker nat (gmap Z PyVal) unit unit).

Definition sample_init (id : string) (debug : bool)
    (supported_frameworks : list (worker.Framework nat))
  : result SampleWorker :=
  worker.Worker___init__ (∅ : gmap Z PyVal) tt tt (worker.mkGlobals ∅)
    id debug supported_frameworks.

(** Two frameworks that both register the name [torch], and one that does
    not. *)
Definition fw_torch : worker.Framework nat :=
  worker.mkFramework (worker.mkGlobals (<["torch" := 1%nat]> ∅)).

Definition fw_torch_again : worker.Framework nat :=
  worker.mkFramework
    (worker.mkGlobals (<["numpy" := 2%nat]> (<["torch" := 3%nat]> ∅))).

Definition fw_numpy : worker.Framework nat :=
  worker.mkFramework (worker.mkGlobals (<["numpy" := 2%nat]> ∅)).

(** The worker that construction yields for [fw_torch] and [fw_numpy]. *)
Definition worker_torch_numpy (id : string) (debug : bool) : SampleWorker :=
  worker.mkWorker id ∅
    (worker.mkGlobals (<["numpy" := 2%nat]> (<["torch" := 1%nat]> ∅)))
    tt (if debug then Some tt else None).

(** The worker that construction yields for no framework and no [debug]. *)
Definition worker_plain (id : string) : SampleWorker :=
  worker.mkWorker id ∅ (worker.mkGlobals ∅) tt None.

(** A statistics collector that counts as true and prints as [stats]. *)
Definition sample_repr (w : SampleWorker) : string :=
  worker.Worker___repr__ (fun _ : unit => true) (fun _ : unit => "stats") w.

(** The four messages of the store scenario, on the identifier [U]. *)
Definition scenario (U : UID) : list SyftMessage :=
  [ SaveObjectMessage U (PyInt 42); GetObjectMessage U;
    DeleteObjectMessage U; GetObjectMessage U ].

(** The value of a little-endian digit string; the specification side of
    [digits_le] and [int_from_bytes]. *)
Fixpoint value_le (l : bytes) : Z :=
  match l with
  | [] => 0
  | d :: l' => byte_to_Z d + 256 * value_le l'
  end.

(** * Properties *)

(** ** The error monad *)

Lemma bind_Ok_inv {A B : Type} (m : result A) (k : A -> result B) (b : B) :
  bind m k = Ok b -> exists a, m = Ok a /\ k a = Ok b.
Proof. destruct m as [a|e]; simpl; [eauto | discriminate]. Qed.

Lemma bind_Raise_inv {A B : Type} (m : result A) (k : A -> result B) (e : exn) :
  bind m k = Raise e -> m = Raise e \/ exists a, m = Ok a /\ k a = Raise e.
Proof. destruct m as [a|e']; simpl; [eauto | intros [= ->]; eauto]. Qed.

Lemma for_each_cons {S X : Type} (body : S -> X -> result S) x xs s :
  for_each body (x :: xs) s = bind (body s x) (for_each body xs).
Proof. reflexivity. Qed.

(** ** Bytes and big-endian integers *)

Lemma byte_to_Z_range (b : byte) : 0 <= byte_to_Z b < 256.
Proof.
  unfold byte_to_Z. pose proof (Byte.to_N_bounded b). lia.
Qed.

Lemma byte_of_to_Z (b : byte) : byte_of_Z (byte_to_Z b) = b.
Proof.
  unfold byte_of_Z, byte_to_Z. by rewrite N2Z.id, Byte.of_to_N.
Qed.

Lemma byte_to_of_Z (z : Z) : 0 <= z < 256 -> byte_to_Z (byte_of_Z z) = z.
Proof.
  intros Hz. unfold byte_of_Z, byte_to_Z.
  destruct (Byte.of_N (Z.to_N z)) as [b|] eqn:E.
  - apply Byte.to_of_N in E. rewrite E. lia.
  - apply Byte.of_N_None_iff in E. lia.
Qed.

Lemma length_digits_le (len : nat) (n : Z) : length (digits_le len n) = len.
Proof.
  revert n. induction len as [|len IH]; intros n; simpl; [done|].
  by rewrite IH.
Qed.

Lemma value_le_range (l : bytes) : 0 <= value_le l < 256 ^ Z.of_nat (length l).
Proof.
  induction l as [|d l IH]; simpl length; simpl value_le; [lia|].
  rewrite Nat2Z.inj_succ, Z.pow_succ_r by lia.
  pose proof (byte_to_Z_range d). lia.
Qed.

Lemma value_le_digits (len : nat) (n : Z) :
  0 <= n < 256 ^ Z.of_nat len -> value_le (digits_le len n) = n.
Proof.
  revert n. induction len as [|len IH]; intros n Hn.
  - simpl in *. lia.
  - rewrite Nat2Z.inj_succ, Z.pow_succ_r in Hn by lia.
    simpl. rewrite byte_to_of_Z by (apply Z.mod_pos_bound; lia).
    rewrite IH.
    + pose proof (Z.div_mod n 256). lia.
    + split; [apply Z.div_pos; lia|].
      apply Z.div_lt_upper_bound; lia.
Qed.

Lemma digits_le_value (l : bytes) : digits_le (length l) (value_le l) = l.
Proof.
  induction l as [|d l IH]; [done|].
  pose proof (byte_to_Z_range d) as Hd.
  simpl. f_equal.
  - replace ((byte_to_Z d + 256 * value_le l) mod 256) with (byte_to_Z d).
    + apply byte_of_to_Z.
    + rewrite (Z.mul_comm 256), Z.mod_add by lia.
      symmetry. apply Z.mod_small. lia.
  - replace ((byte_to_Z d + 256 * value_le l) / 256) with (value_le l); [done|].
    rewrite (Z.mul_comm 256), Z.div_add by lia.
    rewrite (Z.div_small (byte_to_Z d)) by lia. lia.
Qed.

Lemma int_from_bytes_reverse (l : bytes) :
  int_from_bytes (reverse l) = value_le l.
Proof.
  unfold int_from_bytes. induction l as [|d l IH]; [done|].
  rewrite reverse_cons, foldl_snoc, IH. simpl. lia.
Qed.

Lemma int_from_bytes_range (b : bytes) :
  0 <= int_from_bytes b < 256 ^ Z.of_nat (length b).
Proof.
  rewrite <- (reverse_involutive b), int_from_bytes_reverse.
  rewrite length_reverse. apply value_le_range.
Qed.

(** Encoding an integer that fits succeeds, gives [len] bytes, and decodes
    to the integer. *)
Lemma int_to_bytes_ok (n : Z) (len : nat) :
  0 <= n < 256 ^ Z.of_nat len ->
  exists b, int_to_bytes n len = Ok b /\ length b = len /\ int_from_bytes b = n.
Proof.
  intros Hn. exists (reverse (digits_le len n)).
  unfold int_to_bytes. repeat case_decide; try lia.
  split; [done|]. split.
  - by rewrite length_reverse, length_digits_le.
  - by rewrite int_from_bytes_reverse, value_le_digits.
Qed.

(** Decoding a byte string and encoding the result in as many bytes gives
    the string back. *)
Lemma int_to_from_bytes (b : bytes) :
  int_to_bytes (int_from_bytes b) (length b) = Ok b.
Proof.
  pose proof (int_from_bytes_range b) as Hr.
  unfold int_to_bytes. repeat case_decide; try lia.
  f_equal. rewrite <- (reverse_involutive b) at 3. f_equal.
  rewrite <- (reverse_involutive b) at 2.
  rewrite int_from_bytes_reverse, <- (length_reverse b).
  apply digits_le_value.
Qed.

(** ** [uuid.UUID] *)

Lemma pow_256_16 : 256 ^ Z.of_nat 16 = 2 ^ 128.
Proof. reflexivity. Qed.

(** A well-formed [UUID] has a 16-byte form that reads back as its [int]. *)
Lemma uuid_bytes_of_ok (u : uuid.UUID) :
  uuid.wf u ->
  exists b, uuid.bytes_of u = Ok b /\ length b = 16%nat
            /\ int_from_bytes b = uuid.int u.
Proof.
  intros Hu. apply int_to_bytes_ok. rewrite pow_256_16. exact Hu.
Qed.

(** Any 16 bytes make a [UUID], which is well formed and whose byte form is
    those 16 bytes. *)
Lemma uuid_of_bytes_ok (b : bytes) :
  length b = 16%nat ->
  uuid.UUID_of_bytes b = Ok (uuid.mkUUID (int_from_bytes b))
  /\ uuid.wf (uuid.mkUUID (int_from_bytes b))
  /\ uuid.bytes_of (uuid.mkUUID (int_from_bytes b)) = Ok b.
Proof.
  intros Hlen.
  pose proof (int_from_bytes_range b) as Hr.
  rewrite Hlen, pow_256_16 in Hr.
  unfold uuid.UUID_of_bytes, uuid.UUID_of_int, uuid.wf, uuid.bytes_of.
  repeat case_decide; try done. repeat split; try (simpl; lia).
  simpl. rewrite <- Hlen. apply int_to_from_bytes.
Qed.

(** Anything but 16 bytes is refused. *)
Lemma uuid_of_bytes_bad_length (b : bytes) :
  length b ≠ 16%nat ->
  uuid.UUID_of_bytes b = Raise (ValueError "bytes is not a 16-char string").
Proof.
  intros Hlen. unfold uuid.UUID_of_bytes. by case_decide.
Qed.

Lemma uuid_of_bytes_of (u : uuid.UUID) (b : bytes) :
  uuid.wf u -> uuid.bytes_of u = Ok b -> uuid.UUID_of_bytes b = Ok u.
Proof.
  intros Hu Hb. destruct (uuid_bytes_of_ok u Hu) as (b' & Hb' & Hlen & Hint).
  rewrite Hb in Hb'. injection Hb' as <-.
  destruct (uuid_of_bytes_ok b Hlen) as (-> & _ & _).
  rewrite Hint. by destruct u.
Qed.

(** ** [UID] *)

Lemma UID___eq___UID (a b : UID) :
  UID___eq__ a (PyUID b) = PyBool true <-> uuid.int (value a) = uuid.int (value b).
Proof.
  unfold UID___eq__, uuid.UUID___eq__. split.
  - intros H. injection H as H. by apply bool_decide_eq_true in H.
  - intros H. by rewrite bool_decide_eq_true_2.
Qed.

Lemma UID___eq___not_UID (a : UID) (b : PyVal) :
  (forall u, b ≠ PyUID u) -> UID___eq__ a b = PyNone.
Proof.
  intros Hb. destruct b; try done. by destruct (Hb u).
Qed.

(** What deserialization makes of a message with a 16-byte value. *)
Lemma UID__proto2object_ok (p : proto.ProtoUID) :
  length (proto.value p) = 16%nat ->
  UID__proto2object p =
    Ok (if proto.as_wrapper p
        then PyUUID (uuid.mkUUID (int_from_bytes (proto.value p)))
        else PyUID (mkUID (uuid.mkUUID (int_from_bytes (proto.value p))) false)).
Proof.
  intros Hlen. unfold UID__proto2object.
  destruct (uuid_of_bytes_ok _ Hlen) as (-> & _ & _). simpl.
  by destruct (proto.as_wrapper p).
Qed.

(** Serialization of a well-formed [UID] followed by deserialization. *)
Lemma UID_serialize_deserialize (u : UID) :
  uuid.wf (value u) ->
  exists p, UID__object2proto u = Ok p
    /\ proto.obj_type p = "syft.core.common.uid.UID"
    /\ length (proto.value p) = 16%nat
    /\ int_from_bytes (proto.value p) = uuid.int (value u)
    /\ proto.as_wrapper p = as_wrapper u
    /\ UID__proto2object p =
         Ok (if as_wrapper u then PyUUID (value u)
             else PyUID (mkUID (value u) false)).
Proof.
  intros Hu. destruct (uuid_bytes_of_ok _ Hu) as (b & Hb & Hlen & Hint).
  exists (proto.mkProtoUID UID_obj_type b (as_wrapper u)).
  unfold UID__object2proto. rewrite Hb. simpl.
  repeat split; try done.
  rewrite UID__proto2object_ok by done. simpl. rewrite Hint.
  by destruct (value u).
Qed.

(** C2: for every UID [u] with [as_wrapper] false (and a 128-bit value),
    serialization succeeds, the byte form is exactly the 16 bytes of the
    128-bit value, and deserializing it yields a UID identical to [u]. *)
Theorem UID_round_trip (u : UID) :
  uuid.wf (value u) ->
  as_wrapper u = false ->
  exists p, UID__object2proto u = Ok p
    /\ length (proto.value p) = 16%nat
    /\ int_from_bytes (proto.value p) = uuid.int (value u)
    /\ UID__proto2object p = Ok (PyUID u).
Proof.
  intros Hu Hw.
  destruct (UID_serialize_deserialize u Hu) as (p & Hp & _ & Hlen & Hint & _ & Hd).
  exists p. repeat split; try done.
  rewrite Hd, Hw. by destruct u as [v w]; simpl in *; subst.
Qed.

Lemma UID_round_trip_witness :
  exists p, UID__object2proto uid_doc = Ok p
    /\ length (proto.value p) = 16%nat
    /\ int_from_bytes (proto.value p) = uuid.int (value uid_doc)
    /\ UID__proto2object p = Ok (PyUID uid_doc).
Proof.
  apply (UID_round_trip uid_doc).
  - unfold uuid.wf; simpl; lia.
  - reflexivity.
Defined.

(** C3 (the code departs from the claim): compared with a value that is not
    a UID, here the integer 3, [UID.__eq__] falls off its only [if] and the
    comparison evaluates to [None], not to [False]. *)
Theorem UID_eq_non_UID_is_None :
  UID___eq__ uid_doc (PyInt 3) = PyNone
  /\ UID___eq__ uid_doc (PyInt 3) ≠ PyBool false.
Proof. split; [reflexivity | discriminate]. Qed.

(** C5: after serialization of a well-formed UID, deserialization returns
    the raw [uuid] value when [as_wrapper] was set and a domain UID (with the
    same value) when it was not. *)
Theorem UID_dual_return (u : UID) :
  uuid.wf (value u) ->
  exists p, UID__object2proto u = Ok p
    /\ proto.as_wrapper p = as_wrapper u
    /\ UID__proto2object p =
         Ok (if as_wrapper u then PyUUID (value u)
             else PyUID (mkUID (value u) false)).
Proof.
  intros Hu.
  destruct (UID_serialize_deserialize u Hu) as (p & Hp & _ & _ & _ & Hw & Hd).
  by exists p.
Qed.

Lemma UID_dual_return_witness :
  exists p, UID__object2proto uid_wrapping = Ok p
    /\ proto.as_wrapper p = true
    /\ UID__proto2object p = Ok (PyUUID (value uid_wrapping)).
Proof.
  apply (UID_dual_return uid_wrapping).
  unfold uuid.wf; simpl; lia.
Defined.

(** C6: whenever [a == b] is true, [b] is a UID and the two hashes, each the
    integer form of the 128-bit value, are equal. *)
Theorem UID_eq_hash (a : UID) (b : PyVal) :
  UID___eq__ a b = PyBool true ->
  exists ub, b = PyUID ub
    /\ UID___hash__ a = UID___hash__ ub
    /\ UID___hash__ a = uuid.int (value a)
    /\ UID___hash__ ub = uuid.int (value ub).
Proof.
  intros H. destruct b as [| | | | | |ub| |]; try discriminate.
  exists ub. apply UID___eq___UID in H. by repeat split.
Qed.

Lemma UID_eq_hash_witness :
  exists ub, PyUID uid_wrapping = PyUID ub
    /\ UID___hash__ uid_doc = UID___hash__ ub
    /\ UID___hash__ uid_doc = uuid.int (value uid_doc)
    /\ UID___hash__ ub = uuid.int (value ub).
Proof.
  apply (UID_eq_hash uid_doc (PyUID uid_wrapping)). reflexivity.
Defined.

(** C7: a message whose value is not exactly 16 bytes is refused by
    deserialization with the [ValueError] of [uuid.UUID]; no value, and in
    particular no UID, is returned. *)
Theorem UID_deserialize_invalid_bytes (p : proto.ProtoUID) :
  length (proto.value p) ≠ 16%nat ->
  UID__proto2object p = Raise (ValueError "bytes is not a 16-char string")
  /\ forall v, UID__proto2object p ≠ Ok v.
Proof.
  intros Hlen. unfold UID__proto2object.
  rewrite uuid_of_bytes_bad_length by done. simpl. split; [done|]. discriminate.
Qed.

Lemma UID_deserialize_invalid_bytes_witness :
  UID__proto2object proto_short
    = Raise (ValueError "bytes is not a 16-char string")
  /\ forall v, UID__proto2object proto_short ≠ Ok v.
Proof.
  apply (UID_deserialize_invalid_bytes proto_short). simpl. lia.
Defined.

(** C10, as the code has it: two UIDs whose [__hash__] methods return the
    same integer have the same 128-bit value, and compare equal; the method
    returns the whole 128-bit integer. *)
Theorem UID_hash_injective (a b : UID) :
  UID___hash__ a = UID___hash__ b ->
  value a = value b /\ UID___eq__ a (PyUID b) = PyBool true.
Proof.
  intros H. split; [|by apply UID___eq___UID].
  unfold UID___hash__ in H. destruct (value a), (value b). simpl in H. by subst.
Qed.

Lemma UID_hash_injective_witness :
  value uid_doc = value uid_wrapping
  /\ UID___eq__ uid_doc (PyUID uid_wrapping) = PyBool true.
Proof.
  apply (UID_hash_injective uid_doc uid_wrapping). reflexivity.
Defined.

(** C10, as the claim states it, fails: the builtin [hash] reduces the
    128-bit integer, and the two identifiers with the values 8 and 2^64,
    both 128-bit values, have the same [hash] and different values. *)
Lemma UID_builtin_hash_collision :
  uuid.wf (value uid_8) /\ uuid.wf (value uid_2_64)
  /\ builtin_hash uid_8 = builtin_hash uid_2_64
  /\ value uid_8 ≠ value uid_2_64.
Proof.
  repeat split; try (simpl; lia).
  discriminate.
Qed.

(** ** [Worker] *)

Section WorkerProps.

Context {Ast ObjectStore Router WorkerStats : Type}.
Context (ObjectStore_new : ObjectStore).
Context (message_service_mapping : Router).
Context (WorkerStats_new : WorkerStats).
Context (Globals_new : worker.Globals Ast).

Local Abbreviation Worker := (worker.Worker Ast ObjectStore Router WorkerStats).
Local Abbreviation Worker___init__ :=
  (worker.Worker___init__ (ObjectStore:=ObjectStore)
     ObjectStore_new message_service_mapping WorkerStats_new Globals_new).

Implicit Types (fattrs : gmap string Ast) (fw : worker.Framework Ast).
Implicit Types (fws : list (worker.Framework Ast)) (name : string).

Lemma register_attr_Ok fattrs name (node : Ast) fattrs' :
  worker.register_attr fattrs (name, node) = Ok fattrs' ->
  fattrs !! name = None /\ fattrs' = <[name := node]> fattrs.
Proof.
  unfold worker.register_attr. case_decide as H; [done|].
  intros [= <-]. split; [|done].
  by apply eq_None_not_Some.
Qed.

Lemma register_attr_Raise fattrs item e :
  worker.register_attr fattrs item = Raise e -> e = worker.already_imported.
Proof.
  destruct item as [name node]. unfold worker.register_attr.
  case_decide; [|done]. by intros [= <-].
Qed.

(** The inner loop, when it completes, met only names that were not yet
    registered, and leaves all old and all new names registered. *)
Lemma register_items_Ok (items : list (string * Ast)) fattrs fattrs' :
  for_each worker.register_attr items fattrs = Ok fattrs' ->
  (forall name node, (name, node) ∈ items -> fattrs !! name = None)
  /\ (forall name, is_Some (fattrs !! name) -> is_Some (fattrs' !! name))
  /\ (forall name node, (name, node) ∈ items -> is_Some (fattrs' !! name)).
Proof.
  revert fattrs. induction items as [|[k a] items IH]; intros fattrs H.
  - injection H as <-.
    repeat split; try done; intros ? ? Hin; by apply elem_of_nil in Hin.
  - rewrite for_each_cons in H.
    apply bind_Ok_inv in H as (m1 & E & H).
    apply register_attr_Ok in E as [Hk ->].
    destruct (IH _ H) as (IH1 & IH2 & IH3).
    assert (forall name, is_Some (fattrs !! name) ->
                         is_Some (<[k:=a]> fattrs !! name)) as Hmono.
    { intros name Hn. destruct (decide (k = name)) as [->|Hne].
      - rewrite lookup_insert_eq. eauto.
      - by rewrite lookup_insert_ne. }
    repeat split.
    + intros name node [[= -> ->]|Hin]%elem_of_cons; [done|].
      specialize (IH1 _ _ Hin).
      destruct (fattrs !! name) eqn:En; [|done].
      destruct (Hmono name) as [x Hx]; [by rewrite En|]. congruence.
    + intros name Hn. by apply IH2, Hmono.
    + intros name node [[= -> ->]|Hin]%elem_of_cons.
      * apply IH2. rewrite lookup_insert_eq. eauto.
      * by eapply IH3.
Qed.

Lemma register_items_Raise (items : list (string * Ast)) fattrs e :
  for_each worker.register_attr items fattrs = Raise e ->
  e = worker.already_imported.
Proof.
  revert fattrs. induction items as [|item items IH]; intros fattrs H.
  - done.
  - rewrite for_each_cons in H.
    apply bind_Raise_inv in H as [E|(m1 & _ & H)].
    + by eapply register_attr_Raise.
    + by eapply IH.
Qed.

Lemma register_framework_Ok fattrs fw fattrs' :
  worker.register_framework fattrs fw = Ok fattrs' ->
  (forall name, is_Some (worker.attrs (worker.ast fw) !! name) ->
                fattrs !! name = None /\ is_Some (fattrs' !! name))
  /\ (forall name, is_Some (fattrs !! name) -> is_Some (fattrs' !! name)).
Proof.
  intros H. apply register_items_Ok in H as (H1 & H2 & H3).
  split; [|done]. intros name [node Hn].
  apply elem_of_map_to_list in Hn. split; eauto.
Qed.

Lemma register_framework_Raise fattrs fw e :
  worker.register_framework fattrs fw = Raise e ->
  e = worker.already_imported.
Proof. apply register_items_Raise. Qed.

Lemma register_frameworks_Raise fws fattrs e :
  for_each worker.register_framework fws fattrs = Raise e ->
  e = worker.already_imported.
Proof.
  revert fattrs. induction fws as [|fw fws IH]; intros fattrs H; [done|].
  rewrite for_each_cons in H.
  apply bind_Raise_inv in H as [E|(m1 & _ & H)].
  - by eapply register_framework_Raise.
  - by eapply IH.
Qed.

(** The outer loop, when it completes, has kept every name it started
    with, and every name of every framework was new when it was met: not
    registered at the start, and in no later framework of the list. *)
Lemma register_frameworks_Ok fws fattrs fattrs' :
  for_each worker.register_framework fws fattrs = Ok fattrs' ->
  (forall name, is_Some (fattrs !! name) -> is_Some (fattrs' !! name))
  /\ (forall (i : nat) fw name,
        fws !! i = Some fw ->
        is_Some (worker.attrs (worker.ast fw) !! name) ->
        is_Some (fattrs' !! name)
        /\ fattrs !! name = None
        /\ forall (j : nat) fw', (i < j)%nat -> fws !! j = Some fw' ->
              worker.attrs (worker.ast fw') !! name = None).
Proof.
  revert fattrs. induction fws as [|fw0 fws IH]; intros fattrs H.
  - injection H as <-. split; [done|]. intros i fw name Hi. done.
  - rewrite for_each_cons in H.
    apply bind_Ok_inv in H as (m1 & E & H).
    apply register_framework_Ok in E as [Hnew Hmono].
    destruct (IH _ H) as [IH1 IH2]. split; [by auto|].
    intros [|i] fw name Hi Hname; simpl in Hi.
    + injection Hi as <-. destruct (Hnew _ Hname) as [Hnone Hsome].
      repeat split; [by auto|done|].
      intros [|j] fw' Hij Hj; [lia|]. simpl in Hj.
      destruct (worker.attrs (worker.ast fw') !! name) eqn:E'; [|done].
      destruct (IH2 j fw' name Hj) as (_ & Hm1 & _); [by rewrite E'|].
      rewrite Hm1 in Hsome. by destruct Hsome.
    + destruct (IH2 i fw name Hi Hname) as (Hsome & Hm1 & Hlater).
      repeat split; [done| |].
      * destruct (fattrs !! name) eqn:En; [|done].
        destruct (Hmono name) as [x Hx]; [by rewrite En|]. congruence.
      * intros [|j] fw' Hij Hj; [lia|]. simpl in Hj.
        apply (Hlater j); [lia|done].
Qed.

(** Construction fails only with the [KeyError] of the duplicate check. *)
Lemma Worker___init___Raise id debug fws e :
  Worker___init__ id debug fws = Raise e -> e = worker.already_imported.
Proof.
  unfold worker.Worker___init__. intros H.
  apply bind_Raise_inv in H as [E|(m1 & _ & H)]; [|done].
  by eapply register_frameworks_Raise.
Qed.

(** C4: when two frameworks of the list register the same name, the
    constructor raises the [KeyError] of its duplicate check and returns
    no worker. *)
Theorem Worker_duplicate_framework id debug fws (i j : nat) fi fj name :
  i ≠ j ->
  fws !! i = Some fi ->
  fws !! j = Some fj ->
  is_Some (worker.attrs (worker.ast fi) !! name) ->
  is_Some (worker.attrs (worker.ast fj) !! name) ->
  Worker___init__ id debug fws
    = Raise (KeyError
               "Framework already imported. Why are you importing it twice?")
  /\ forall w, Worker___init__ id debug fws ≠ Ok w.
Proof.
  intros Hij Hi Hj Hni Hnj.
  assert (forall w, Worker___init__ id debug fws ≠ Ok w) as Hno.
  { intros w H. unfold worker.Worker___init__ in H.
    apply bind_Ok_inv in H as (m & H & _).
    apply register_frameworks_Ok in H as [_ H].
    destruct (decide (i < j)%nat) as [Hlt|Hge].
    - destruct (H i fi name Hi Hni) as (_ & _ & Hlater).
      rewrite (Hlater j fj Hlt Hj) in Hnj. by destruct Hnj.
    - destruct (H j fj name Hj Hnj) as (_ & _ & Hlater).
      rewrite (Hlater i fi ltac:(lia) Hi) in Hni. by destruct Hni. }
  split; [|done].
  destruct (Worker___init__ id debug fws) as [w|e] eqn:E.
  - by destruct (Hno w).
  - apply Worker___init___Raise in E. by subst.
Qed.

(** C8: on every worker, the transport methods [_send_msg] and [_recv_msg]
    raise [NotImplementedError]. *)
Theorem Worker_transport_not_implemented (w : Worker) :
  worker._send_msg w = Raise NotImplementedError
  /\ worker._recv_msg w = Raise NotImplementedError.
Proof. split; reflexivity. Qed.

(** C9: for every message and every worker, [recv_msg] returns [None] and
    leaves the worker (store, frameworks, router, statistics collector)
    as it was. *)
Theorem Worker_recv_msg_frame (w : Worker) (msg : SyftMessage) :
  exists (r : PyVal) (w' : Worker),
    worker.recv_msg w msg = Ok (r, w')
    /\ r = PyNone
    /\ w' = w
    /\ worker.store w' = worker.store w
    /\ worker.frameworks w' = worker.frameworks w
    /\ worker.msg_router w' = worker.msg_router w
    /\ worker.worker_stats w' = worker.worker_stats w.
Proof.
  exists PyNone, w. unfold worker.recv_msg.
  destruct msg; repeat split.
Qed.

Lemma recv_msgs_None (w : Worker) (msgs : list SyftMessage) :
  worker.recv_msgs w msgs = Ok (replicate (length msgs) PyNone, w).
Proof.
  induction msgs as [|msg msgs IH]; [done|].
  simpl. by rewrite IH.
Qed.

(** C1, as the code has it: a worker constructed with id ["node-a"], no
    frameworks and debug off is built, with the fresh store, the fresh
    [Globals], the shared router and no statistics collector; [recv_msg]
    then returns [None] for each of the four messages of the scenario and
    leaves the worker as constructed. *)
Theorem Worker_scenario_returns_None (U : UID) :
  exists w : Worker,
    Worker___init__ "node-a" false [] = Ok w
    /\ w = worker.mkWorker "node-a" ObjectStore_new Globals_new
              message_service_mapping None
    /\ worker.recv_msgs w (scenario U)
         = Ok ([PyNone; PyNone; PyNone; PyNone], w).
Proof.
  eexists. split; [reflexivity|]. split.
  - by destruct Globals_new.
  - apply recv_msgs_None.
Qed.

End WorkerProps.

Lemma Worker_duplicate_framework_witness :
  sample_init "node-a" false [fw_torch; fw_numpy; fw_torch_again]
    = Raise (KeyError
               "Framework already imported. Why are you importing it twice?")
  /\ forall w, sample_init "node-a" false [fw_torch; fw_numpy; fw_torch_again]
                 ≠ Ok w.
Proof.
  apply (Worker_duplicate_framework (∅ : gmap Z PyVal) tt tt (worker.mkGlobals ∅)
           "node-a" false [fw_torch; fw_numpy; fw_torch_again]
           0%nat 2%nat fw_torch fw_torch_again "torch").
  - lia.
  - reflexivity.
  - reflexivity.
  - vm_compute. eauto.
  - vm_compute. eauto.
Defined.

(** C1, as the claim states it, fails: on the sample worker constructed
    with id ["node-a"], no frameworks and debug off, the four messages on
    the identifier of the docstring are not answered by [Ack], [42], [Ack],
    [NotFound]. *)
Lemma Worker_scenario_counterexample :
  ~ exists w w' : SampleWorker,
      sample_init "node-a" false [] = Ok w
      /\ worker.recv_msgs w (scenario uid_doc)
           = Ok ([PyAck; PyInt 42; PyAck; PyNotFound], w').
Proof.
  intros (w & w' & _ & H). rewrite recv_msgs_None in H. discriminate.
Qed.

(** ** [Worker.__init__]: the registration loops in closed form *)

Section WorkerRegistration.

Context {Ast ObjectStore Router WorkerStats : Type}.
Context (ObjectStore_new : ObjectStore).
Context (message_service_mapping : Router).
Context (WorkerStats_new : WorkerStats).
Context (Globals_new : worker.Globals Ast).

Local Abbreviation Worker := (worker.Worker Ast ObjectStore Router WorkerStats).
Local Abbreviation Worker___init__ :=
  (worker.Worker___init__ (ObjectStore:=ObjectStore)
     ObjectStore_new message_service_mapping WorkerStats_new Globals_new).
Local Abbreviation fattrs_of fw := (worker.attrs (worker.ast fw)).

Implicit Types (fattrs : gmap string Ast) (fw : worker.Framework Ast).
Implicit Types (fws : list (worker.Framework Ast)) (name : string).

(** The inner loop over items with distinct names, none of them registered
    yet, adds all of them. *)
Lemma register_items_fresh (items : list (string * Ast)) fattrs :
  NoDup items.*1 ->
  (forall name node, (name, node) ∈ items -> fattrs !! name = None) ->
  for_each worker.register_attr items fattrs
    = Ok (list_to_map items ∪ fattrs).
Proof.
  revert fattrs. induction items as [|[k a] items IH]; intros fattrs Hnd Hnew.
  - simpl. by rewrite (left_id_L ∅ (∪)).
  - apply NoDup_cons in Hnd as [Hk Hnd].
    rewrite list_to_map_cons, for_each_cons. unfold worker.register_attr at 1.
    rewrite (Hnew k a) by left. case_decide as Hs; [by destruct Hs|].
    unfold bind. rewrite IH; [|done|].
    + f_equal. rewrite <- insert_union_l, <- insert_union_r; [done|].
      by apply not_elem_of_list_to_map_1.
    + intros name node Hin. rewrite lookup_insert_ne.
      * apply (Hnew name node). by right.
      * intros ->. apply Hk. apply list_elem_of_fmap. by exists (name, node).
Qed.

(** One framework whose names are all new is merged into the table. *)
Lemma register_framework_disjoint fattrs fw :
  fattrs_of fw ##ₘ fattrs ->
  worker.register_framework fattrs fw = Ok (fattrs_of fw ∪ fattrs).
Proof.
  intros Hd. unfold worker.register_framework.
  rewrite register_items_fresh.
  - by rewrite list_to_map_to_list.
  - apply NoDup_fst_map_to_list.
  - intros name node Hin%elem_of_map_to_list.
    by eapply map_disjoint_Some_l.
Qed.

(** One framework with a name that is registered already stops the loop. *)
Lemma register_framework_overlap fattrs fw :
  ¬ (fattrs_of fw ##ₘ fattrs) ->
  worker.register_framework fattrs fw = Raise worker.already_imported.
Proof.
  intros Hd.
  destruct (worker.register_framework fattrs fw) as [m|e] eqn:E.
  - exfalso. apply Hd. apply register_framework_Ok in E as [Hnew _].
    apply map_disjoint_alt. intros name.
    destruct (fattrs_of fw !! name) eqn:En; [right|by left].
    apply Hnew. by rewrite En.
  - apply register_framework_Raise in E. by subst.
Qed.

(** When two frameworks are registered one after the other, all three
    tables are pairwise disjoint. *)
Lemma register_two_Ok fattrs fa fb m' :
  (let! m := worker.register_framework fattrs fa in
   worker.register_framework m fb) = Ok m' ->
  fattrs_of fa ##ₘ fattrs /\ fattrs_of fb ##ₘ fattrs
  /\ fattrs_of fa ##ₘ fattrs_of fb.
Proof.
  intros H. apply bind_Ok_inv in H as (m & Ea & Eb).
  apply register_framework_Ok in Ea as [Ha1 Ha2].
  apply register_framework_Ok in Eb as [Hb1 Hb2].
  repeat split; apply map_disjoint_alt; intros name.
  - destruct (fattrs_of fa !! name) eqn:En; [right|by left].
    apply Ha1. by rewrite En.
  - destruct (fattrs_of fb !! name) eqn:En; [right|by left].
    destruct (fattrs !! name) eqn:Em; [|done].
    destruct (Hb1 name) as [Hm _]; [by rewrite En|].
    destruct (Ha2 name) as [x Hx]; [by rewrite Em|]. congruence.
  - destruct (fattrs_of fa !! name) eqn:En; [right|by left].
    destruct (fattrs_of fb !! name) eqn:Eb'; [|done].
    destruct (Hb1 name) as [Hm _]; [by rewrite Eb'|].
    destruct (Ha1 name) as [_ [x Hx]]; [by rewrite En|]. congruence.
Qed.

Lemma register_two_disjoint fattrs fa fb :
  fattrs_of fa ##ₘ fattrs -> fattrs_of fb ##ₘ fattrs ->
  fattrs_of fa ##ₘ fattrs_of fb ->
  (let! m := worker.register_framework fattrs fa in
   worker.register_framework m fb)
  = Ok (fattrs_of fb ∪ (fattrs_of fa ∪ fattrs)).
Proof.
  intros Ha Hb Hab. rewrite register_framework_disjoint by done.
  unfold bind. rewrite register_framework_disjoint; [done|].
  by apply map_disjoint_union_r.
Qed.

Lemma register_two_Raise fattrs fa fb e :
  (let! m := worker.register_framework fattrs fa in
   worker.register_framework m fb) = Raise e ->
  e = worker.already_imported.
Proof.
  intros H. apply bind_Raise_inv in H as [E|(m & _ & E)];
    by apply register_framework_Raise in E.
Qed.

(** Two frameworks can be registered in either order. *)
Lemma register_framework_swap fattrs fw1 fw2 :
  (let! m := worker.register_framework fattrs fw1 in
   worker.register_framework m fw2)
  = (let! m := worker.register_framework fattrs fw2 in
     worker.register_framework m fw1).
Proof.
  destruct (let! m := worker.register_framework fattrs fw1 in
            worker.register_framework m fw2) as [m1|e1] eqn:E1;
  destruct (let! m := worker.register_framework fattrs fw2 in
            worker.register_framework m fw1) as [m2|e2] eqn:E2.
  - destruct (register_two_Ok _ _ _ _ E1) as (H1 & H2 & H12).
    rewrite register_two_disjoint in E1 by done.
    rewrite register_two_disjoint in E2 by done.
    injection E1 as <-. injection E2 as <-. f_equal.
    rewrite !(assoc_L (∪)). f_equal. symmetry. by apply map_union_comm.
  - destruct (register_two_Ok _ _ _ _ E1) as (H1 & H2 & H12).
    rewrite register_two_disjoint in E2 by done. discriminate.
  - destruct (register_two_Ok _ _ _ _ E2) as (H2 & H1 & H21).
    rewrite register_two_disjoint in E1 by done. discriminate.
  - apply register_two_Raise in E1, E2. by subst.
Qed.

Lemma register_framework_Ok_inv fattrs fw m :
  worker.register_framework fattrs fw = Ok m ->
  fattrs_of fw ##ₘ fattrs /\ m = fattrs_of fw ∪ fattrs.
Proof.
  intros E.
  assert (fattrs_of fw ##ₘ fattrs) as Hd.
  { apply register_framework_Ok in E as [Hnew _].
    apply map_disjoint_alt. intros name.
    destruct (fattrs_of fw !! name) eqn:En; [right|by left].
    apply Hnew. by rewrite En. }
  split; [done|]. rewrite register_framework_disjoint in E by done.
  by injection E.
Qed.

Lemma register_frameworks_perm fws fws' :
  fws ≡ₚ fws' ->
  forall fattrs,
    for_each worker.register_framework fws fattrs
    = for_each worker.register_framework fws' fattrs.
Proof.
  induction 1 as [|fw l l' _ IH|fw1 fw2 l|l1 l2 l3 _ IH1 _ IH2]; intros fattrs.
  - done.
  - rewrite !for_each_cons.
    destruct (worker.register_framework fattrs fw); simpl; [apply IH|done].
  - rewrite !for_each_cons.
    pose proof (register_framework_swap fattrs fw1 fw2) as Hs.
    destruct (worker.register_framework fattrs fw1) as [m1|e1] eqn:E1;
    destruct (worker.register_framework fattrs fw2) as [m2|e2] eqn:E2;
      simpl in *; rewrite ?for_each_cons.
    + rewrite <- Hs.
      by destruct (worker.register_framework m2 fw1).
    + rewrite Hs. done.
    + rewrite <- Hs. done.
    + done.
  - by rewrite IH1, IH2.
Qed.

(** The table that the outer loop leaves holds exactly the entries it
    started with and the entries of the frameworks. *)
Lemma register_frameworks_lookup fws fattrs fattrs' :
  for_each worker.register_framework fws fattrs = Ok fattrs' ->
  forall name (node : Ast),
    fattrs' !! name = Some node <->
    fattrs !! name = Some node
    \/ exists fw, fw ∈ fws /\ fattrs_of fw !! name = Some node.
Proof.
  revert fattrs. induction fws as [|fw0 fws IH]; intros fattrs H name node.
  - injection H as <-. split; [by left|].
    intros [?|(fw & Hin & _)]; [done|]. by apply elem_of_nil in Hin.
  - rewrite for_each_cons in H. apply bind_Ok_inv in H as (m1 & E & H).
    apply register_framework_Ok_inv in E as [Hd ->].
    rewrite (IH _ H), (lookup_union_Some _ _ _ _ Hd). split.
    + intros [[H0|Hm]|(fw & Hin & Hfw)].
      * right. exists fw0. split; [by left|done].
      * by left.
      * right. exists fw. split; [by right|done].
    + intros [Hm|(fw & [->|Hin]%elem_of_cons & Hfw)].
      * left. by right.
      * left. by left.
      * right. by exists fw.
Qed.

(** The outer loop completes when no framework repeats a name of the table
    it starts with or of another framework of the list. *)
Lemma register_frameworks_complete fws fattrs :
  (forall fw, fw ∈ fws -> fattrs_of fw ##ₘ fattrs) ->
  (forall (i j : nat) fi fj, i ≠ j -> fws !! i = Some fi -> fws !! j = Some fj ->
                             fattrs_of fi ##ₘ fattrs_of fj) ->
  exists fattrs', for_each worker.register_framework fws fattrs = Ok fattrs'.
Proof.
  revert fattrs. induction fws as [|fw0 fws IH]; intros fattrs Hinit Hpair.
  - by exists fattrs.
  - rewrite for_each_cons, register_framework_disjoint by (apply Hinit; by left).
    simpl. apply IH.
    + intros fw Hin. apply map_disjoint_union_r. split.
      * apply list_elem_of_lookup_1 in Hin as [i Hi].
        by apply (Hpair (S i) 0%nat).
      * apply Hinit. by right.
    + intros i j fi fj Hij Hi Hj. apply (Hpair (S i) (S j)); [lia|done|done].
Qed.

End WorkerRegistration.

(** ** [Worker.__init__]: what construction yields *)

Section WorkerConstruction.

Context {Ast ObjectStore Router WorkerStats : Type}.
Context (ObjectStore_new : ObjectStore).
Context (message_service_mapping : Router).
Context (WorkerStats_new : WorkerStats).
Context (Globals_new : worker.Globals Ast).

Local Abbreviation Worker := (worker.Worker Ast ObjectStore Router WorkerStats).
Local Abbreviation Worker___init__ :=
  (worker.Worker___init__ (ObjectStore:=ObjectStore)
     ObjectStore_new message_service_mapping WorkerStats_new Globals_new).
Local Abbreviation fattrs_of fw := (worker.attrs (worker.ast fw)).

Implicit Types (fw : worker.Framework Ast) (name : string).
Implicit Types (fws : list (worker.Framework Ast)).

(** X1: construction succeeds exactly when no framework has a name that
    [Globals()] already holds and no two frameworks of the list (at
    different positions) have a name in common. *)
Theorem Worker_init_Ok_iff_disjoint id debug fws :
  (exists w, Worker___init__ id debug fws = Ok w)
  <->
  (forall fw, fw ∈ fws -> fattrs_of fw ##ₘ worker.attrs Globals_new)
  /\ (forall (i j : nat) fi fj,
        i ≠ j -> fws !! i = Some fi -> fws !! j = Some fj ->
        fattrs_of fi ##ₘ fattrs_of fj).
Proof.
  split.
  - intros [w H]. unfold worker.Worker___init__ in H.
    apply bind_Ok_inv in H as (m & H & _).
    apply register_frameworks_Ok in H as [_ H].
    assert (forall (i j : nat) fi fj,
              (i < j)%nat -> fws !! i = Some fi -> fws !! j = Some fj ->
              fattrs_of fi ##ₘ fattrs_of fj) as Hlt.
    { intros i j fi fj Hij Hi Hj. apply map_disjoint_alt. intros name.
      destruct (fattrs_of fi !! name) eqn:En; [right|by left].
      destruct (H i fi name Hi) as (_ & _ & Hlater); [by rewrite En|].
      by apply (Hlater j). }
    split.
    + intros fw [i Hi]%list_elem_of_lookup_1.
      apply map_disjoint_alt. intros name.
      destruct (fattrs_of fw !! name) eqn:En; [right|by left].
      destruct (H i fw name Hi) as (_ & Hnone & _); [by rewrite En|done].
    + intros i j fi fj Hij Hi Hj.
      destruct (decide (i < j)%nat); [by apply (Hlt i j)|].
      symmetry. apply (Hlt j i); [lia|done|done].
  - intros [Hinit Hpair].
    destruct (register_frameworks_complete fws (worker.attrs Globals_new)
                Hinit Hpair) as [m Hm].
    unfold worker.Worker___init__. rewrite Hm. simpl. eauto.
Qed.

(** X2: after a successful construction the worker's table of frameworks
    holds, under each name, exactly the node that [Globals()] or one of the
    frameworks gave for it, and nothing else. *)
Theorem Worker_init_registers_union id debug fws (w : Worker) :
  Worker___init__ id debug fws = Ok w ->
  forall name (node : Ast),
    worker.attrs (worker.frameworks w) !! name = Some node <->
    worker.attrs Globals_new !! name = Some node
    \/ exists fw, fw ∈ fws /\ fattrs_of fw !! name = Some node.
Proof.
  intros H. unfold worker.Worker___init__ in H.
  apply bind_Ok_inv in H as (m & H & Hw). injection Hw as <-. simpl.
  by apply register_frameworks_lookup.
Qed.

(** X3: the outcome of construction, the worker or the exception, does not
    depend on the order of the frameworks in the list. *)
Theorem Worker_init_permutation id debug fws fws' :
  fws ≡ₚ fws' ->
  Worker___init__ id debug fws = Worker___init__ id debug fws'.
Proof.
  intros Hp. unfold worker.Worker___init__.
  by rewrite (register_frameworks_perm fws fws' Hp).
Qed.

Lemma Worker_init_fields_aux id debug fws (w : Worker) :
  Worker___init__ id debug fws = Ok w ->
  worker.id w = id
  /\ worker.worker_stats w = (if debug then Some WorkerStats_new else None).
Proof.
  intros H. unfold worker.Worker___init__ in H.
  apply bind_Ok_inv in H as (m & _ & Hw). injection Hw as <-. simpl.
  by destruct debug.
Qed.

(** X5: construction can fail only with the [KeyError] of the duplicate
    check, never on an empty list of frameworks, and the failure depends
    neither on the id nor on [debug]. *)
Theorem Worker_init_Raise id debug fws e :
  Worker___init__ id debug fws = Raise e ->
  e = KeyError "Framework already imported. Why are you importing it twice?"
  /\ fws ≠ []
  /\ forall id' debug', Worker___init__ id' debug' fws = Raise e.
Proof.
  intros H. unfold worker.Worker___init__ in *.
  apply bind_Raise_inv in H as [E|(m & _ & H)]; [|done].
  repeat split.
  - by apply register_frameworks_Raise in E.
  - intros ->. discriminate.
  - intros id' debug'. by rewrite E.
Qed.

End WorkerConstruction.

Lemma Worker_init_registers_union_witness :
  sample_init "node-a" false [fw_torch; fw_numpy]
    = Ok (worker_torch_numpy "node-a" false)
  /\ forall name (node : nat),
      worker.attrs (worker.frameworks (worker_torch_numpy "node-a" false))
        !! name = Some node <->
      (∅ : gmap string nat) !! name = Some node
      \/ exists fw, fw ∈ [fw_torch; fw_numpy]
                    /\ worker.attrs (worker.ast fw) !! name = Some node.
Proof.
  assert (sample_init "node-a" false [fw_torch; fw_numpy]
          = Ok (worker_torch_numpy "node-a" false)) as H
    by (vm_compute; reflexivity).
  split; [exact H|].
  exact (Worker_init_registers_union (∅ : gmap Z PyVal) tt tt
           (worker.mkGlobals ∅) "node-a" false [fw_torch; fw_numpy]
           (worker_torch_numpy "node-a" false) H).
Defined.

Lemma Worker_init_permutation_witness :
  sample_init "node-a" true [fw_torch; fw_numpy]
  = sample_init "node-a" true [fw_numpy; fw_torch].
Proof.
  apply (Worker_init_permutation (∅ : gmap Z PyVal) tt tt
           (worker.mkGlobals ∅) "node-a" true
           [fw_torch; fw_numpy] [fw_numpy; fw_torch]).
  apply perm_swap.
Defined.

Lemma Worker_init_Raise_witness :
  worker.already_imported
    = KeyError "Framework already imported. Why are you importing it twice?"
  /\ [fw_numpy; fw_torch_again] ≠ []
  /\ forall id' debug',
       sample_init id' debug' [fw_numpy; fw_torch_again]
       = Raise worker.already_imported.
Proof.
  apply (Worker_init_Raise (∅ : gmap Z PyVal) tt tt
           (worker.mkGlobals ∅) "node-a" false [fw_numpy; fw_torch_again]).
  vm_compute. reflexivity.
Defined.

(** ** [UID]: serialization, equality and hashing together *)

(** X6: a message with a 16-byte value, [as_wrapper] unset and the object
    type of [UID] deserializes to a UID that serializes back to the very
    same message. *)
Theorem UID_deserialize_serialize (p : proto.ProtoUID) :
  length (proto.value p) = 16%nat ->
  proto.as_wrapper p = false ->
  proto.obj_type p = "syft.core.common.uid.UID" ->
  exists u, UID__proto2object p = Ok (PyUID u)
    /\ uuid.wf (value u)
    /\ UID__object2proto u = Ok p.
Proof.
  intros Hlen Hw Ht. destruct p as [t b w]. simpl in *. subst.
  rewrite UID__proto2object_ok by done. simpl.
  destruct (uuid_of_bytes_ok b Hlen) as (_ & Hwf & Hb).
  eexists. split; [reflexivity|]. split; [done|].
  unfold UID__object2proto. simpl. by rewrite Hb.
Qed.

(** X7: two UIDs with the same serialized message are the same UID: same
    value and same [as_wrapper] flag. *)
Theorem UID_serialize_injective (a b : UID) :
  uuid.wf (value a) ->
  uuid.wf (value b) ->
  UID__object2proto a = UID__object2proto b ->
  a = b.
Proof.
  intros Ha Hb H.
  destruct (UID_serialize_deserialize a Ha) as (pa & Hpa & _ & _ & Hia & Hwa & _).
  destruct (UID_serialize_deserialize b Hb) as (pb & Hpb & _ & _ & Hib & Hwb & _).
  rewrite Hpa, Hpb in H. injection H as ->.
  destruct a as [[ia] wa], b as [[ib] wb]. simpl in *. congruence.
Qed.

(** X8: on two UIDs [__eq__] always answers with a bool, and the answer is
    reflexive, symmetric and transitive. *)
Theorem UID_eq_equivalence :
  (forall a b : UID, exists r : bool, UID___eq__ a (PyUID b) = PyBool r)
  /\ (forall a : UID, UID___eq__ a (PyUID a) = PyBool true)
  /\ (forall a b : UID, UID___eq__ a (PyUID b) = UID___eq__ b (PyUID a))
  /\ (forall a b c : UID,
        UID___eq__ a (PyUID b) = PyBool true ->
        UID___eq__ b (PyUID c) = PyBool true ->
        UID___eq__ a (PyUID c) = PyBool true).
Proof.
  repeat split.
  - intros a b. simpl. eauto.
  - intros a. by apply UID___eq___UID.
  - intros a b. simpl. f_equal. unfold uuid.UUID___eq__.
    apply bool_decide_ext. split; congruence.
  - intros a b c Hab Hbc. apply UID___eq___UID in Hab, Hbc.
    apply UID___eq___UID. congruence.
Qed.

(** X9: equality and hashing look at the value only: a UID and the UID with
    the same value and the opposite [as_wrapper] flag are different objects
    with different serialized messages, yet compare equal and hash alike. *)
Theorem UID_eq_ignores_as_wrapper (v : uuid.UUID) (w : bool) :
  uuid.wf v ->
  mkUID v w ≠ mkUID v (negb w)
  /\ UID__object2proto (mkUID v w) ≠ UID__object2proto (mkUID v (negb w))
  /\ UID___eq__ (mkUID v w) (PyUID (mkUID v (negb w))) = PyBool true
  /\ UID___hash__ (mkUID v w) = UID___hash__ (mkUID v (negb w)).
Proof.
  intros Hv. repeat split.
  - intros [= H]. by destruct w.
  - destruct (UID_serialize_deserialize (mkUID v w) Hv)
      as (p1 & -> & _ & _ & _ & Hw1 & _).
    destruct (UID_serialize_deserialize (mkUID v (negb w)) Hv)
      as (p2 & -> & _ & _ & _ & Hw2 & _).
    intros [= ->]. rewrite Hw1 in Hw2. simpl in Hw2. by destruct w.
  - by apply UID___eq___UID.
Qed.

(** X10: two UIDs compare equal exactly when their serialized messages carry
    the same 16 bytes. *)
Theorem UID_eq_iff_same_bytes (a b : UID) (pa pb : proto.ProtoUID) :
  uuid.wf (value a) ->
  uuid.wf (value b) ->
  UID__object2proto a = Ok pa ->
  UID__object2proto b = Ok pb ->
  UID___eq__ a (PyUID b) = PyBool true <-> proto.value pa = proto.value pb.
Proof.
  intros Ha Hb Hpa Hpb.
  destruct (UID_serialize_deserialize a Ha) as (pa' & Hpa' & _ & _ & Hia & _).
  destruct (UID_serialize_deserialize b Hb) as (pb' & Hpb' & _ & _ & Hib & _).
  rewrite Hpa in Hpa'. injection Hpa' as <-.
  rewrite Hpb in Hpb'. injection Hpb' as <-.
  rewrite UID___eq___UID. split.
  - intros Hi. unfold UID__object2proto, uuid.bytes_of in Hpa, Hpb.
    rewrite Hi in Hpa.
    destruct (int_to_bytes (uuid.int (value b)) 16) as [bs|e]; simpl in *;
      [|done].
    injection Hpa as <-. by injection Hpb as <-.
  - intros Hv. by rewrite <- Hia, <- Hib, Hv.
Qed.

(** X11: whatever deserialization returns came from exactly 16 bytes and is
    a 128-bit value read from them: the raw [uuid] when the message carries
    [as_wrapper], and otherwise a UID whose own [as_wrapper] is unset. *)
Theorem UID_deserialize_Ok (p : proto.ProtoUID) (v : PyVal) :
  UID__proto2object p = Ok v ->
  length (proto.value p) = 16%nat
  /\ exists u : uuid.UUID,
       uuid.wf u
       /\ uuid.int u = int_from_bytes (proto.value p)
       /\ v = (if proto.as_wrapper p then PyUUID u else PyUID (mkUID u false)).
Proof.
  intros H.
  destruct (decide (length (proto.value p) = 16%nat)) as [Hlen|Hlen].
  - split; [done|]. rewrite UID__proto2object_ok in H by done.
    injection H as <-.
    destruct (uuid_of_bytes_ok _ Hlen) as (_ & Hwf & _).
    exists (uuid.mkUUID (int_from_bytes (proto.value p))).
    repeat split; try apply Hwf; try by destruct (proto.as_wrapper p).
  - unfold UID__proto2object in H.
    rewrite uuid_of_bytes_bad_length in H by done. discriminate.
Qed.

Lemma UID_deserialize_serialize_witness :
  exists u, UID__proto2object proto_doc = Ok (PyUID u)
    /\ uuid.wf (value u)
    /\ UID__object2proto u = Ok proto_doc.
Proof.
  apply (UID_deserialize_serialize proto_doc); reflexivity.
Defined.

Lemma UID_serialize_injective_witness :
  uid_doc = UID___init__ (uuid.mkUUID 0) (Some (value uid_wrapping)) false.
Proof.
  apply (UID_serialize_injective uid_doc
           (UID___init__ (uuid.mkUUID 0) (Some (value uid_wrapping)) false)).
  - unfold uuid.wf; simpl; lia.
  - unfold uuid.wf; simpl; lia.
  - reflexivity.
Defined.

Lemma UID_eq_ignores_as_wrapper_witness :
  uid_doc ≠ uid_wrapping
  /\ UID__object2proto uid_doc ≠ UID__object2proto uid_wrapping
  /\ UID___eq__ uid_doc (PyUID uid_wrapping) = PyBool true
  /\ UID___hash__ uid_doc = UID___hash__ uid_wrapping.
Proof.
  apply (UID_eq_ignores_as_wrapper (value uid_doc) false).
  unfold uuid.wf; simpl; lia.
Defined.

Lemma UID_eq_iff_same_bytes_witness :
  UID___eq__ uid_doc (PyUID uid_wrapping) = PyBool true
  <-> proto.value proto_doc = proto.value proto_wrapping.
Proof.
  apply (UID_eq_iff_same_bytes uid_doc uid_wrapping proto_doc proto_wrapping).
  - unfold uuid.wf; simpl; lia.
  - unfold uuid.wf; simpl; lia.
  - vm_compute. reflexivity.
  - vm_compute. reflexivity.
Defined.

Lemma UID_deserialize_Ok_witness :
  length (proto.value proto_wrapping) = 16%nat
  /\ exists u : uuid.UUID,
       uuid.wf u
       /\ uuid.int u = int_from_bytes (proto.value proto_wrapping)
       /\ PyUUID (value uid_wrapping)
          = (if proto.as_wrapper proto_wrapping
             then PyUUID u else PyUID (mkUID u false)).
Proof.
  apply (UID_deserialize_Ok proto_wrapping (PyUUID (value uid_wrapping))).
  vm_compute. reflexivity.
Defined.

Example UID___repr___doc :
  UID___repr__ uid_doc = "<UID:8d744978-327b-4126-a644-cb90bcadd35e>".
Proof. vm_compute. reflexivity. Qed.

(** ** [UID.__repr__] *)

Lemma hex_value_digit (d : Z) : 0 <= d < 16 -> hex_value (hex_digit d) = d.
Proof.
  intros Hd. replace d with (Z.of_nat (Z.to_nat d)) by lia.
  assert (Z.to_nat d < 16)%nat as Hk by lia.
  generalize dependent (Z.to_nat d). intros k Hk.
  do 16 (destruct k as [|k]; [reflexivity|]). lia.
Qed.

Lemma length_hex_le (len : nat) (n : Z) : length (hex_le len n) = len.
Proof.
  revert n. induction len as [|len IH]; intros n; simpl; [done|].
  by rewrite IH.
Qed.

Lemma value_hex_le_digits (len : nat) (n : Z) :
  0 <= n < 16 ^ Z.of_nat len -> value_hex_le (hex_le len n) = n.
Proof.
  revert n. induction len as [|len IH]; intros n Hn.
  - simpl in *. lia.
  - rewrite Nat2Z.inj_succ, Z.pow_succ_r in Hn by lia.
    simpl. rewrite hex_value_digit by (apply Z.mod_pos_bound; lia).
    rewrite IH.
    + pose proof (Z.div_mod n 16). lia.
    + split; [apply Z.div_pos; lia|].
      apply Z.div_lt_upper_bound; lia.
Qed.

Lemma hex_len_128 (n : Z) : 0 <= n < 2 ^ 128 -> (hex_len n <= 32)%nat.
Proof.
  intros Hn. unfold hex_len. case_decide as Hz; [lia|].
  assert (Z.log2 n < 128) as Hl by (apply Z.log2_lt_pow2; lia).
  pose proof (Z.log2_nonneg n).
  assert (Z.log2 n / 4 < 32) by (apply Z.div_lt_upper_bound; lia).
  pose proof (Z.div_pos (Z.log2 n) 4). lia.
Qed.

(** On a 128-bit value ['%032x'] gives exactly 32 digits. *)
Lemma format_0x_128 (n : Z) :
  0 <= n < 2 ^ 128 -> format_0x 32 n = reverse (hex_le 32 n).
Proof.
  intros Hn. unfold format_0x. case_decide; [lia|].
  pose proof (hex_len_128 n Hn). by rewrite Nat.max_l by lia.
Qed.

(** The text form of a 128-bit value has 36 characters, and without its
    dashes it is the 32 digits. *)
Lemma UUID___str___digits (u : uuid.UUID) :
  uuid.wf u ->
  length (UUID___str__ u) = 36%nat
  /\ undash (UUID___str__ u) = reverse (hex_le 32 (uuid.int u)).
Proof.
  intros Hu. unfold UUID___str__. rewrite format_0x_128 by done.
  assert (length (reverse (hex_le 32 (uuid.int u))) = 32%nat) as Hlen
    by (by rewrite length_reverse, length_hex_le).
  generalize dependent (reverse (hex_le 32 (uuid.int u))). intros l Hlen.
  do 32 (destruct l as [|? l]; [discriminate|]).
  destruct l; [|discriminate]. split; reflexivity.
Qed.

Lemma list_ascii_of_string_app (s t : string) :
  String.list_ascii_of_string (s +:+ t)
  = String.list_ascii_of_string s ++ String.list_ascii_of_string t.
Proof.
  induction s as [|c s IH]; simpl; [done|]. by rewrite IH.
Qed.

Lemma length_string_of_list_ascii (l : list ascii) :
  String.length (String.string_of_list_ascii l) = length l.
Proof.
  induction l as [|c l IH]; simpl; [done|]. by rewrite IH.
Qed.

Lemma UID___repr___chars (u : UID) :
  String.list_ascii_of_string (UID___repr__ u)
  = String.list_ascii_of_string "<UID:" ++ UUID___str__ (value u) ++ [">"%char].
Proof.
  unfold UID___repr__. rewrite !list_ascii_of_string_app.
  by rewrite String.list_ascii_of_string_of_list_ascii.
Qed.

(** X12: the printed form of a UID is [<UID:] followed by the 36 characters
    of the value and [>], 42 characters in all, and two UIDs print alike
    exactly when they compare equal. *)
Theorem UID_repr_iff_eq (a b : UID) :
  uuid.wf (value a) ->
  uuid.wf (value b) ->
  String.length (UID___repr__ a) = 42%nat
  /\ (UID___repr__ a = UID___repr__ b
      <-> UID___eq__ a (PyUID b) = PyBool true).
Proof.
  intros Ha Hb.
  destruct (UUID___str___digits _ Ha) as [Hla Hda].
  destruct (UUID___str___digits _ Hb) as [Hlb Hdb].
  split.
  - rewrite <- (String.string_of_list_ascii_of_string (UID___repr__ a)).
    rewrite length_string_of_list_ascii, UID___repr___chars.
    rewrite !length_app, Hla. reflexivity.
  - rewrite UID___eq___UID. split.
    + intros H. apply (f_equal String.list_ascii_of_string) in H.
      rewrite !UID___repr___chars in H.
      apply app_inv_head, app_inj_tail in H as [H _].
      apply (f_equal undash) in H. rewrite Hda, Hdb in H.
      apply (f_equal reverse) in H. rewrite !reverse_involutive in H.
      apply (f_equal value_hex_le) in H.
      by rewrite !value_hex_le_digits in H.
    + intros H. unfold UID___repr__, UUID___str__. by rewrite H.
Qed.

Lemma UID_repr_iff_eq_witness :
  String.length (UID___repr__ uid_doc) = 42%nat
  /\ (UID___repr__ uid_doc = UID___repr__ uid_wrapping
      <-> UID___eq__ uid_doc (PyUID uid_wrapping) = PyBool true).
Proof.
  apply (UID_repr_iff_eq uid_doc uid_wrapping).
  - unfold uuid.wf; simpl; lia.
  - unfold uuid.wf; simpl; lia.
Defined.

(** ** [Worker.__repr__] *)

Section WorkerRepr.

Context {Ast ObjectStore Router WorkerStats : Type}.
Context (ObjectStore_new : ObjectStore).
Context (message_service_mapping : Router).
Context (WorkerStats_new : WorkerStats).
Context (Globals_new : worker.Globals Ast).
Context (WorkerStats___bool__ : WorkerStats -> bool).
Context (WorkerStats___str__ : WorkerStats -> string).

Local Abbreviation Worker := (worker.Worker Ast ObjectStore Router WorkerStats).
Local Abbreviation Worker___init__ :=
  (worker.Worker___init__ (ObjectStore:=ObjectStore)
     ObjectStore_new message_service_mapping WorkerStats_new Globals_new).
Local Abbreviation Worker___repr__ :=
  (worker.Worker___repr__ (Ast:=Ast) (ObjectStore:=ObjectStore)
     (Router:=Router) WorkerStats___bool__ WorkerStats___str__).

(** X13: a constructed worker prints as [Worker id:] and its id, unless it
    was built with [debug] and its statistics collector counts as true:
    then it prints as [Worker: ], the id, a line break and the collector. *)
Theorem Worker_repr_after_init id debug fws (w : Worker) :
  Worker___init__ id debug fws = Ok w ->
  Worker___repr__ w =
    if debug && WorkerStats___bool__ WorkerStats_new
    then "Worker: " +:+ id +:+ worker.newline
         +:+ WorkerStats___str__ WorkerStats_new
    else "Worker id:" +:+ id.
Proof.
  intros H.
  destruct (Worker_init_fields_aux ObjectStore_new message_service_mapping
              WorkerStats_new Globals_new id debug fws w H) as (Hid & Hst).
  unfold worker.Worker___repr__. rewrite Hid, Hst.
  destruct debug; simpl; [|done].
  by destruct (WorkerStats___bool__ WorkerStats_new).
Qed.

(** X14: two workers built without [debug] print alike exactly when they
    have the same id, whatever frameworks each was given. *)
Theorem Worker_repr_identifies_id id1 id2 fws1 fws2 (w1 w2 : Worker) :
  Worker___init__ id1 false fws1 = Ok w1 ->
  Worker___init__ id2 false fws2 = Ok w2 ->
  Worker___repr__ w1 = Worker___repr__ w2 <-> id1 = id2.
Proof.
  intros H1 H2.
  destruct (Worker_init_fields_aux ObjectStore_new message_service_mapping
              WorkerStats_new Globals_new id1 false fws1 w1 H1) as (Hi1 & Hs1).
  destruct (Worker_init_fields_aux ObjectStore_new message_service_mapping
              WorkerStats_new Globals_new id2 false fws2 w2 H2) as (Hi2 & Hs2).
  unfold worker.Worker___repr__. rewrite Hi1, Hi2, Hs1, Hs2. split.
  - intros H. by simplify_eq/=.
  - by intros ->.
Qed.

End WorkerRepr.

Lemma Worker_repr_after_init_witness :
  sample_repr (worker_torch_numpy "node-a" true)
  = "Worker: " +:+ "node-a" +:+ worker.newline +:+ "stats".
Proof.
  apply (Worker_repr_after_init (∅ : gmap Z PyVal) tt tt (worker.mkGlobals ∅)
           (fun _ : unit => true) (fun _ : unit => "stats")
           "node-a" true [fw_torch; fw_numpy]).
  vm_compute. reflexivity.
Defined.

Lemma Worker_repr_identifies_id_witness :
  sample_repr (worker_torch_numpy "node-a" false)
    = sample_repr (worker_plain "node-a")
  <-> "node-a" = "node-a".
Proof.
  apply (Worker_repr_identifies_id (∅ : gmap Z PyVal) tt tt
           (worker.mkGlobals ∅)
           (fun _ : unit => true) (fun _ : unit => "stats")
           "node-a" "node-a" [fw_torch; fw_numpy] []).
  - vm_compute. reflexivity.
  - vm_compute. reflexivity.
Defined.

Lemma hash_of_int_nonneg (n : Z) :
  0 <= n ->
  hash_of_int n = if decide (n < 2 ^ 63) then n else n mod (2 ^ 61 - 1).
Proof.
  intros Hn. unfold hash_of_int.
  pose proof (Z.mod_pos_bound n (2 ^ 61 - 1) ltac:(lia)).
  repeat case_decide; try lia.
  all: rewrite Z.abs_eq, Z.sgn_pos in * by lia; lia.
Qed.

(** X15: for a deserialized UID, [__hash__] returns the big-endian integer
    of the 16 bytes of the message, a number below 2^128; the builtin
    [hash] of the UID is that integer when it is below 2^63 and its
    remainder modulo 2^61 - 1 otherwise; and deserialization looks at the
    bytes and the flag of the message only. *)
Theorem UID_deserialize_hash (p : proto.ProtoUID) (u : UID) :
  UID__proto2object p = Ok (PyUID u) ->
  UID___hash__ u = int_from_bytes (proto.value p)
  /\ 0 <= UID___hash__ u < 2 ^ 128
  /\ builtin_hash u =
       (if decide (int_from_bytes (proto.value p) < 2 ^ 63)
        then int_from_bytes (proto.value p)
        else int_from_bytes (proto.value p) mod (2 ^ 61 - 1))
  /\ forall p', proto.value p' = proto.value p ->
       UID__proto2object p' = Ok (if proto.as_wrapper p' then PyUUID (value u)
                                  else PyUID u).
Proof.
  intros H.
  destruct (decide (length (proto.value p) = 16%nat)) as [Hlen|Hlen].
  - rewrite UID__proto2object_ok in H by done.
    destruct (proto.as_wrapper p); [done|]. injection H as <-.
    destruct (uuid_of_bytes_ok _ Hlen) as (_ & Hwf & _).
    repeat split; try apply Hwf.
    + unfold builtin_hash. apply hash_of_int_nonneg, Hwf.
    + intros p' Hp'. rewrite UID__proto2object_ok by (by rewrite Hp').
      by rewrite Hp'.
  - unfold UID__proto2object in H.
    rewrite uuid_of_bytes_bad_length in H by done. discriminate.
Qed.

Lemma UID_deserialize_hash_witness :
  UID___hash__ uid_doc = int_from_bytes (proto.value proto_doc)
  /\ 0 <= UID___hash__ uid_doc < 2 ^ 128
  /\ builtin_hash uid_doc =
       (if decide (int_from_bytes (proto.value proto_doc) < 2 ^ 63)
        then int_from_bytes (proto.value proto_doc)
        else int_from_bytes (proto.value proto_doc) mod (2 ^ 61 - 1))
  /\ forall p', proto.value p' = proto.value proto_doc ->
       UID__proto2object p' = Ok (if proto.as_wrapper p'
                                  then PyUUID (value uid_doc)
                                  else PyUID uid_doc).
Proof.
  apply (UID_deserialize_hash proto_doc uid_doc).
  vm_compute. reflexivity.
Defined.

Example builtin_hash_doc : builtin_hash uid_doc = 1290025460570774710.
Proof. vm_compute. reflexivity. Qed.
